(** * AI Telegram bot (src/main.py): a shallow embedding and its properties

    The bot relays chat messages to a hosted completion endpoint and sends
    the answer back.  The Python code is embedded as follows.

    - [str] values are [string]s holding the UTF-8 encoding of the text;
      an f-string is a concatenation ([+:+]).
    - The process environment ([os.environ] after [load_dotenv()]) is a
      finite map [gmap string string].
    - Side effects (logging, the completion call, the chat transport) are
      recorded in a chronological trace of [event]s.  A [Log] event is a
      record written by one of the script's own [logger] calls; what the
      libraries write to the same log is not modelled.  What the outside
      world answers is given by a [World] of oracles, which may depend on
      everything that happened before.
    - A Python exception is an [exn]; code that may raise lives in the
      monad [M], whose computations end in [Returns v] or [Raises e].
      [exn] stands for instances of [Exception], the class the source
      catches; interpreter signals (KeyboardInterrupt, SystemExit) are
      asynchronous and are not part of this model.
    - [await] is sequencing: every coroutine of the source awaits its
      callee to completion before it goes on. *)

From stdpp Require Import gmap strings list.
From Stdlib Require Import ZArith Floats.

(* String literals from [string_scope]; [++] stays the append of lists. *)
Open Scope string_scope.
Close Scope list_scope.
Open Scope list_scope.
Set Warnings "-inexact-float".

(** ** Python strings *)

Module Py.

(** [sub in s] for two [str]s. *)
Fixpoint contains (s sub : string) : bool :=
  String.prefix sub s ||
  match s with
  | EmptyString => false
  | String _ s' => contains s' sub
  end.

(** [drop_prefix p s] is [Some r] when [s = p +:+ r]. *)
Fixpoint drop_prefix (p s : string) : option string :=
  match p, s with
  | EmptyString, _ => Some s
  | String a p', String b s' =>
      if Ascii.eqb a b then drop_prefix p' s' else None
  | String _ _, EmptyString => None
  end.

Definition of_bytes (l : list nat) : string :=
  String.string_of_list_ascii (map Ascii.ascii_of_nat l).

(** The code points for which [str.isspace] holds, as CPython's
    [_PyUnicode_IsWhitespace] lists them, each in its UTF-8 encoding:
    U+0009..U+000D, U+001C..U+0020, U+0085, U+00A0, U+1680,
    U+2000..U+200A, U+2028, U+2029, U+202F, U+205F, U+3000. *)
Definition whitespace : list string :=
  map of_bytes
    ([ [9]; [10]; [11]; [12]; [13]; [28]; [29]; [30]; [31]; [32];
       [194; 133]; [194; 160]; [225; 154; 128] ] ++
     map (fun b => [226; 128; b]) (seq 128 11) ++
     [ [226; 128; 168]; [226; 128; 169]; [226; 128; 175];
       [226; 129; 159]; [227; 128; 128] ])%list.

(** Removes one leading character of [table] when there is one. *)
Fixpoint drop_one (table : list string) (s : string) : option string :=
  match table with
  | [] => None
  | p :: table' =>
      match drop_prefix p s with
      | Some r => Some r
      | None => drop_one table' s
      end
  end.

Fixpoint lstrip_aux (table : list string) (fuel : nat) (s : string) : string :=
  match fuel with
  | O => s
  | S fuel' =>
      match drop_one table s with
      | Some r => lstrip_aux table fuel' r
      | None => s
      end
  end.

(** [s.lstrip()]: every removal shortens [s], so [length s] rounds are
    enough (see [lstrip_done]). *)
Definition lstrip (s : string) : string :=
  lstrip_aux whitespace (String.length s) s.

(** [s.rstrip()], on the reversed string with the reversed encodings. *)
Definition rstrip (s : string) : string :=
  String.rev
    (lstrip_aux (map String.rev whitespace) (String.length s) (String.rev s)).

(** [s.strip()] *)
Definition strip (s : string) : string := rstrip (lstrip s).

End Py.

(** ** Exceptions, events and the effect monad *)

Inductive exn_class :=
| ValueError
| AttributeError
| IndexError
| OpenAIError      (* openai.OpenAIError and subclasses: API and connection errors *)
| TelegramError.   (* telegram.error.TelegramError and subclasses *)

Record exn := Exn { exn_cls : exn_class; exn_msg : string }.

(** [str(e)] *)
Definition str_exn (e : exn) : string := exn_msg e.

Inductive log_level := INFO | ERROR.

(** The request the completion endpoint receives. *)
Record ChatMessage := { role : string; content : string }.

Record CompletionRequest := {
  req_model : string;
  req_messages : list ChatMessage;
  req_max_tokens : Z;
  req_temperature : float
}.

(** The parts of the endpoint's answer that the code reads:
    [response.choices[0].message.content]. *)
Record ChatCompletionMessage := { msg_content : option string }.
Record Choice := { message_of : ChatCompletionMessage }.
Record ChatCompletion := { choices : list Choice }.

(** The parts of a Telegram update that the handlers read. *)
Record Chat := { chat_id : Z }.
Record User := { first_name : string }.
Record Message := { chat : Chat; text : string }.
Record Update := {
  message : option Message;
  effective_user : option User;
  effective_message : option Message
}.

Inductive event :=
| Log (lvl : log_level) (msg : string)
| CompletionsCreate (req : CompletionRequest)
| SendAction (c : Chat) (action : string)
| ReplyText (c : Chat) (txt : option string) (parse_mode : option string)
| AppInitialize
| AppStart
| StartPolling.

Definition trace := list event.

Inductive outcome (A : Type) :=
| Returns (a : A)
| Raises (e : exn).
Arguments Returns {A} a.
Arguments Raises {A} e.

Definition M (A : Type) : Type := trace -> outcome A * trace.

Definition ret {A} (a : A) : M A := fun t => (Returns a, t).

Definition raise {A} (e : exn) : M A := fun t => (Raises e, t).

Definition bind {A B} (m : M A) (k : A -> M B) : M B :=
  fun t =>
    match m t with
    | (Returns a, t') => k a t'
    | (Raises e, t') => (Raises e, t')
    end.

Declare Scope py_scope.
Notation "x ← m ; k" := (bind m (fun x => k))
  (at level 20, m at level 100, k at level 200, only parsing) : py_scope.
Notation "m ;; k" := (bind m (fun _ => k))
  (at level 100, k at level 200, only parsing, right associativity) : py_scope.
Open Scope py_scope.

(** [try: body / except Exception as e: handler e] *)
Definition try_except {A} (body : M A) (handler : exn -> M A) : M A :=
  fun t =>
    match body t with
    | (Returns a, t') => (Returns a, t')
    | (Raises e, t') => handler e t'
    end.

Definition emit (e : event) : M unit := fun t => (Returns tt, t ++ [e]).

(** [logger.info(msg)], [logger.error(msg)] *)
Definition logger_info (msg : string) : M unit := emit (Log INFO msg).
Definition logger_error (msg : string) : M unit := emit (Log ERROR msg).

(** The receiver of an attribute access [obj.name]: [obj] itself, or
    [AttributeError] when [obj] is [None]. *)
Definition receiver {A} (obj : option A) (name : string) : M A :=
  match obj with
  | Some a => ret a
  | None =>
      raise (Exn AttributeError
               ("'NoneType' object has no attribute '" +:+ name +:+ "'"))
  end.

(** [l[0]] *)
Definition item0 {A} (l : list A) : M A :=
  match l with
  | a :: _ => ret a
  | [] => raise (Exn IndexError "list index out of range")
  end.

(** ** The outside world *)

(** Each oracle sees the trace up to (and including) the request it
    answers.  [inl e] is the call raising [e]. *)
Record World := {
  completions_create : trace -> CompletionRequest -> exn + ChatCompletion;
  send_action : trace -> Chat -> string -> option exn;
  send_message : trace -> Chat -> option string -> option string -> option exn;
  app_initialize : trace -> option exn;
  app_start : trace -> option exn;
  start_polling : trace -> option exn
}.

Definition answer (r : option exn) : M unit :=
  match r with
  | None => ret tt
  | Some e => raise e
  end.

(** [openai_client.chat.completions.create(...)]: one event per call of
    [create].  The client of line 37 keeps the library's retry setting, so
    one call may reach the endpoint more than once before it answers or
    raises; those attempts are inside the call and leave no event. *)
Definition chat_completions_create (w : World) (req : CompletionRequest)
  : M ChatCompletion :=
  emit (CompletionsCreate req) ;;
  fun t =>
    match completions_create w t req with
    | inr resp => (Returns resp, t)
    | inl e => (Raises e, t)
    end.

(** [await m.chat.send_action(action=...)] *)
Definition chat_send_action (w : World) (c : Chat) (action : string) : M unit :=
  emit (SendAction c action) ;;
  fun t => answer (send_action w t c action) t.

(** [await m.reply_text(txt, parse_mode=...)]: a message to the chat of [m]. *)
Definition reply_text (w : World) (m : Message) (txt : option string)
    (parse_mode : option string) : M unit :=
  emit (ReplyText (chat m) txt parse_mode) ;;
  fun t => answer (send_message w t (chat m) txt parse_mode) t.

(** ** Configuration: the module-level code (lines 21-34) *)

(** The builtins [int] and [float] on a [str]: [None] is [ValueError]. *)
Record Builtins := {
  int_of_str : string -> option Z;
  float_of_str : string -> option float
}.

(** [int(v)] for [v] a [str] or an [int].  The text of the [ValueError]
    is Python's whenever [repr(s)] is [s] between single quotes. *)
Definition py_int (b : Builtins) (v : string + Z) : M Z :=
  match v with
  | inr n => ret n
  | inl s =>
      match int_of_str b s with
      | Some n => ret n
      | None =>
          raise (Exn ValueError
                   ("invalid literal for int() with base 10: '" +:+ s +:+ "'"))
      end
  end.

(** [float(v)] for [v] a [str] or a [float]; the text of the
    [ValueError] as for [py_int]. *)
Definition py_float (b : Builtins) (v : string + float) : M float :=
  match v with
  | inr x => ret x
  | inl s =>
      match float_of_str b s with
      | Some x => ret x
      | None =>
          raise (Exn ValueError
                   ("could not convert string to float: '" +:+ s +:+ "'"))
      end
  end.

(** [os.getenv(key)] and [os.getenv(key, default)] *)
Definition getenv (env : gmap string string) (key : string) : option string :=
  env !! key.

Definition getenv_default {D} (env : gmap string string) (key : string)
    (default : D) : string + D :=
  match env !! key with
  | Some v => inl v
  | None => inr default
  end.

(** Truth value of a [str] or [None]: [None] and the empty string are false. *)
Definition truthy (v : option string) : bool :=
  match v with
  | Some s => negb (String.eqb s EmptyString)
  | None => false
  end.

Definition AI_MODEL (env : gmap string string) : string :=
  match getenv_default env "AI_MODEL" "gpt-3.5-turbo" with
  | inl v => v
  | inr d => d
  end.

Definition AI_MAX_TOKENS (b : Builtins) (env : gmap string string) : M Z :=
  py_int b (getenv_default env "AI_MAX_TOKENS" 500%Z).

Definition AI_TEMPERATURE (b : Builtins) (env : gmap string string) : M float :=
  py_float b (getenv_default env "AI_TEMPERATURE" 0.7%float).

(** The module's globals once its top-level code has run. *)
Record Globals := {
  TELEGRAM_TOKEN : option string;
  OPENAI_API_KEY : option string;
  cfg_model : string;
  cfg_max_tokens : Z;
  cfg_temperature : float
}.

(** Lines 28-34. *)
Definition check_env (token key : option string) : M unit :=
  (if negb (truthy token) then
     logger_error "❌ TELEGRAM_BOT_TOKEN nu este setat în .env" ;;
     raise (Exn ValueError "TELEGRAM_BOT_TOKEN lipsă")
   else ret tt) ;;
  (if negb (truthy key) then
     logger_error "❌ OPENAI_API_KEY nu este setat în .env" ;;
     raise (Exn ValueError "OPENAI_API_KEY lipsă")
   else ret tt).

(** Lines 21-34, in the order of the source: the numeric settings are
    read before the credentials are checked.  The client built on line 37
    is the endpoint of the [World]. *)
Definition module_init (b : Builtins) (env : gmap string string) : M Globals :=
  let token := getenv env "TELEGRAM_BOT_TOKEN" in
  let key := getenv env "OPENAI_API_KEY" in
  let model := AI_MODEL env in
  max_tokens ← AI_MAX_TOKENS b env ;
  temperature ← AI_TEMPERATURE b env ;
  check_env token key ;;
  ret {| TELEGRAM_TOKEN := token; OPENAI_API_KEY := key; cfg_model := model;
         cfg_max_tokens := max_tokens; cfg_temperature := temperature |}.

(** ** The completion client *)

(** The f-string of lines 46-51. *)
Definition system_prompt (user_name : string) : string :=
  "Ești un asistent AI prietenos într-un chat Telegram.
Utilizatorul se numește " +:+ user_name +:+ ".
Răspunde într-un mod conversațional, prietenos și util.
Fii concis dar informativ.
Limba: română (dacă utilizatorul scrie în română) sau engleză.
".

Definition fallback : string :=
  "⚠️ Scuze, am întâmpinat o eroare. Încearcă din nou.".

Definition completion_request (g : Globals) (user_message user_name : string)
  : CompletionRequest :=
  {| req_model := cfg_model g;
     req_messages :=
       [ {| role := "system"; content := system_prompt user_name |};
         {| role := "user"; content := user_message |} ];
     req_max_tokens := cfg_max_tokens g;
     req_temperature := cfg_temperature g |}.

(** [get_ai_response(user_message, user_name)].  The result type is
    [Optional[str]], here [option string]. *)
Definition get_ai_response (w : World) (g : Globals)
    (user_message user_name : string) : M (option string) :=
  try_except
    (response ← chat_completions_create w
                  (completion_request g user_message user_name) ;
     choice ← item0 (choices response) ;
     c ← receiver (msg_content (message_of choice)) "strip" ;
     ret (Some (Py.strip c)))
    (fun e =>
       logger_error ("❌ Eroare AI: " +:+ str_exn e) ;;
       ret (Some fallback)).

(** The call [get_ai_response(user_message)]: [user_name] takes its
    default value. *)
Definition get_ai_response_default (w : World) (g : Globals)
    (user_message : string) : M (option string) :=
  get_ai_response w g user_message "User".

(** ** Command responders (lines 70-134) *)

(** The f-string of lines 73-87. *)
Definition welcome_message (first_name : string) : string :=
  "
👋 Bun venit, " +:+ first_name +:+ "!

Eu sunt asistentul tău AI. Pot să:
• 💬 Vorbesc cu tine despre orice
• 🧠 Îți răspund la întrebări
• 📝 Te ajut cu sfaturi și idei

Trimite-mi un mesaj și îți voi răspunde!
    
Comenzi disponibile:
/start - Acest mesaj
/help - Ajutor și informații
/about - Despre acest bot
    ".

Definition help_text : string :=
  "
🤖 **Cum să folosești acest bot:**

1. Scrie-mi orice mesaj și voi răspunde folosind AI
2. Poți să mă întrebi orice:
   - Întrebări generale
   - Sfaturi și recomandări
   - Explicații și definiții
   - Conversații libere

🔧 **Comenzi:**
/start - Mesaj de bun venit
/help - Acest mesaj de ajutor
/about - Informații despre bot

💡 **Sfaturi:**
• Folosește româna sau engleza
• Fii specific în întrebări pentru răspunsuri mai bune
• Botul nu reține contextul între mesaje (versiune simplă)
    ".

Definition about_text : string :=
  "
🤖 **AI Telegram Bot**
    
Versiune: 1.0
Creator: [Numele tău]
    
💻 **Tehnologii:**
• Python + python-telegram-bot
• OpenAI GPT API
• Deploy pe Render/Railway
    
🔐 **Confidențialitate:**
• Conversațiile sunt procesate de OpenAI
• Nu stochez mesaje permanente
• Cod sursă disponibil pe GitHub
    
✉️ Contact: [email-ul tău]
    ".

(** [start_command(update, context)] *)
Definition start_command (w : World) (update : Update) : M unit :=
  user ← receiver (effective_user update) "first_name" ;
  m ← receiver (message update) "reply_text" ;
  reply_text w m (Some (welcome_message (first_name user))) None.

(** [help_command(update, context)] *)
Definition help_command (w : World) (update : Update) : M unit :=
  m ← receiver (message update) "reply_text" ;
  reply_text w m (Some help_text) (Some "Markdown").

(** [about_command(update, context)] *)
Definition about_command (w : World) (update : Update) : M unit :=
  m ← receiver (message update) "reply_text" ;
  reply_text w m (Some about_text) None.

(** ** Message relay (lines 136-150) *)

(** [handle_message(update, context)] *)
Definition handle_message (w : World) (g : Globals) (update : Update) : M unit :=
  m ← receiver (message update) "text" ;
  let user_message := text m in
  user ← receiver (effective_user update) "first_name" ;
  logger_info ("📩 Mesaj de la " +:+ first_name user +:+ ": " +:+ user_message) ;;
  chat_send_action w (chat m) "typing" ;;
  ai_response ← get_ai_response w g user_message (first_name user) ;
  reply_text w m ai_response None.

(** ** Error sink (lines 152-159) *)

Definition apology : string :=
  "❌ A apărut o eroare. Te rog încearcă din nou.".

(** [error_handler(update, context)]: [update] may be [None];
    [error] is [context.error]. *)
Definition error_handler (w : World) (update : option Update) (error : exn)
  : M unit :=
  logger_error ("❌ Eroare: " +:+ str_exn error) ;;
  match update with
  | Some u =>
      match effective_message u with
      | Some m => reply_text w m (Some apology) None
      | None => ret tt
      end
  | None => ret tt
  end.

(** ** Bootstrap (lines 162-213) *)

Inductive command := Start | Help | About.

Definition command_name (c : command) : string :=
  match c with
  | Start => "start"
  | Help => "help"
  | About => "about"
  end.

(** The handler [setup_bot] registers for each command. *)
Definition responder (c : command) : World -> Update -> M unit :=
  match c with
  | Start => start_command
  | Help => help_command
  | About => about_command
  end.

Record Application := {
  command_handlers : list (string * (World -> Update -> M unit));
  message_handler : World -> Globals -> Update -> M unit;
  error_handlers : list (World -> option Update -> exn -> M unit)
}.

(** [setup_bot()]: which handler is registered for what.  The token of
    line 165 and the filter of line 174 go to the library and are not
    part of this record. *)
Definition setup_bot : Application :=
  {| command_handlers :=
       map (fun c => (command_name c, responder c)) [Start; Help; About];
     message_handler := handle_message;
     error_handlers := [error_handler] |}.

Definition set_or_missing (v : option string) : string :=
  if truthy v then "✅ Setat" else "❌ Lipsă".

(** [main()] up to the point where polling has started; the coroutine
    then waits on an event that is never set. *)
Definition main (w : World) (g : Globals) : M Application :=
  logger_info "🚀 Pornire AI Telegram Bot..." ;;
  logger_info ("🤖 Bot Token: " +:+ set_or_missing (TELEGRAM_TOKEN g)) ;;
  logger_info ("🧠 OpenAI Key: " +:+ set_or_missing (OPENAI_API_KEY g)) ;;
  logger_info ("📊 Model AI: " +:+ cfg_model g) ;;
  let application := setup_bot in
  logger_info "✅ Bot-ul este gata!" ;;
  logger_info "📡 Aștept mesaje..." ;;
  emit AppInitialize ;;
  (fun t => answer (app_initialize w t) t) ;;
  emit AppStart ;;
  (fun t => answer (app_start w t) t) ;;
  emit StartPolling ;;
  (fun t => answer (start_polling w t) t) ;;
  ret application.

(** The script: the module-level code, then the [__main__] block, whose
    [except Exception] logs what [main] raised. *)
Definition script (b : Builtins) (w : World) (env : gmap string string)
  : M unit :=
  g ← module_init b env ;
  try_except
    (main w g ;; ret tt)
    (fun e => logger_error ("💥 Eroare critică: " +:+ str_exn e)).

(** ** Sample values used by the examples *)

Module Sample.

(** ASCII decimal digits, as [int] reads them. *)
Fixpoint digits (s : string) (acc : Z) : option Z :=
  match s with
  | EmptyString => Some acc
  | String c s' =>
      let n := Z.of_nat (Ascii.nat_of_ascii c) in
      if ((48 <=? n) && (n <=? 57))%Z then digits s' (10 * acc + (n - 48))%Z
      else None
  end.

Definition decimal (s : string) : option Z :=
  match s with
  | EmptyString => None
  | _ => digits s 0%Z
  end.

(** [int] on strings of ASCII digits, [float] on the one literal used below;
    both reject ["abc"]. *)
Definition builtins : Builtins :=
  {| int_of_str := decimal;
     float_of_str := fun s => if String.eqb s "0.2" then Some 0.2%float else None |}.

Definition completion (c : option string) : ChatCompletion :=
  {| choices := [ {| message_of := {| msg_content := c |} |} ] |}.

(** The endpoint always gives [r]; the transport accepts everything. *)
Definition quiet (r : exn + ChatCompletion) : World :=
  {| completions_create := fun _ _ => r;
     send_action := fun _ _ _ => None;
     send_message := fun _ _ _ _ => None;
     app_initialize := fun _ => None;
     app_start := fun _ => None;
     start_polling := fun _ => None |}.

(** As [quiet], but sending a message with an empty text is refused, as the
    Bot API does. *)
Definition strict (r : exn + ChatCompletion) : World :=
  {| completions_create := fun _ _ => r;
     send_action := fun _ _ _ => None;
     send_message := fun _ _ txt _ =>
       match txt with
       | Some EmptyString | None => Some (Exn TelegramError "Message text is empty")
       | Some _ => None
       end;
     app_initialize := fun _ => None;
     app_start := fun _ => None;
     start_polling := fun _ => None |}.

(** No network: every call to the outside raises. *)
Definition offline : World :=
  {| completions_create := fun _ _ => inl (Exn OpenAIError "Connection error.");
     send_action := fun _ _ _ => Some (Exn TelegramError "Timed out");
     send_message := fun _ _ _ _ => Some (Exn TelegramError "Timed out");
     app_initialize := fun _ => Some (Exn TelegramError "Timed out");
     app_start := fun _ => Some (Exn TelegramError "Timed out");
     start_polling := fun _ => Some (Exn TelegramError "Timed out") |}.

Definition globals : Globals :=
  {| TELEGRAM_TOKEN := Some "123:abc"; OPENAI_API_KEY := Some "sk-test";
     cfg_model := "gpt-3.5-turbo"; cfg_max_tokens := 500;
     cfg_temperature := 0.7%float |}.

Definition tuned : gmap string string :=
  {[ "AI_MODEL" := "gpt-4o"; "AI_MAX_TOKENS" := "1000";
     "AI_TEMPERATURE" := "0.2" ]}.

(** Both credentials, nothing else. *)
Definition ready : gmap string string :=
  {[ "TELEGRAM_BOT_TOKEN" := "123:abc"; "OPENAI_API_KEY" := "sk-test" ]}.

Definition room : Chat := {| chat_id := 42 |}.

Definition from_maria (txt : string) : Update :=
  let m := {| chat := room; text := txt |} in
  {| message := Some m;
     effective_user := Some {| first_name := "Maria" |};
     effective_message := Some m |}.

End Sample.

(** ** Vocabulary of the properties *)

(** The messages a trace sends to chats: chat and text, in order. *)
Definition replies (t : trace) : list (Chat * option string) :=
  omap (fun e => match e with
                 | ReplyText c txt _ => Some (c, txt)
                 | _ => None
                 end) t.

(** The endpoint, asked [req] after [t], answers with a first choice whose
    content is the text [c]. *)
Definition endpoint_text (w : World) (t : trace) (req : CompletionRequest)
    (c : string) : Prop :=
  exists resp ch rest,
    completions_create w t req = inr resp /\
    choices resp = ch :: rest /\
    msg_content (message_of ch) = Some c.

(** The [try] block of [get_ai_response] fails with [e]: the call of
    [create] raises [e], or its answer has no choice ([IndexError]), or
    the first choice has no content ([AttributeError] from [None.strip]). *)
Definition endpoint_failure (w : World) (t : trace) (req : CompletionRequest)
    (e : exn) : Prop :=
  completions_create w t req = inl e \/
  (exists resp,
     completions_create w t req = inr resp /\
     choices resp = [] /\
     e = Exn IndexError "list index out of range") \/
  (exists resp ch rest,
     completions_create w t req = inr resp /\
     choices resp = ch :: rest /\
     msg_content (message_of ch) = None /\
     e = Exn AttributeError "'NoneType' object has no attribute 'strip'").

(** The message a handler answers to, if there is one. *)
Definition message_context (update : option Update) : option Message :=
  match update with
  | Some u => effective_message u
  | None => None
  end.

(** *** The relay, as section 8 states it: one reply, never empty, no
    exception, after the typing signal.  (Which text is sent is left
    open here.) *)
Definition relays_once (w : World) (g : Globals) (u : Update) : Prop :=
  exists m r t1 t2,
    message u = Some m /\
    handle_message w g u [] =
      (Returns tt, t1 ++ SendAction (chat m) "typing" :: t2) /\
    replies t1 = [] /\
    replies t2 = [(chat m, Some r)] /\
    r <> EmptyString.

(** *** The error sink, as section 4.4 states it: it logs, apologises
    exactly when there is a message to answer, and does not throw. *)
Definition error_sink_contract (w : World) (update : option Update)
    (error : exn) : Prop :=
  exists t,
    error_handler w update error [] = (Returns tt, t) /\
    Log ERROR ("❌ Eroare: " +:+ str_exn error) ∈ t /\
    replies t = match message_context update with
                | Some m => [(chat m, Some apology)]
                | None => []
                end.

(** *** The startup check, as section 8 states it. *)
Definition refuses_to_start (b : Builtins) (w : World)
    (env : gmap string string) (complaint : string) : Prop :=
  exists e t,
    script b w env [] = (Raises e, t) /\
    Log ERROR complaint ∈ t /\
    StartPolling ∉ t.

Definition startup_contract (b : Builtins) (w : World)
    (env : gmap string string) : Prop :=
  (truthy (env !! "TELEGRAM_BOT_TOKEN") = false ->
   refuses_to_start b w env "❌ TELEGRAM_BOT_TOKEN nu este setat în .env") /\
  (truthy (env !! "TELEGRAM_BOT_TOKEN") = true ->
   truthy (env !! "OPENAI_API_KEY") = false ->
   refuses_to_start b w env "❌ OPENAI_API_KEY nu este setat în .env") /\
  (truthy (env !! "TELEGRAM_BOT_TOKEN") = true ->
   truthy (env !! "OPENAI_API_KEY") = true ->
   exists g, module_init b env [] = (Returns g, [])).

(** The numeric settings are unset or well formed. *)
Definition numbers_parse (b : Builtins) (env : gmap string string) : Prop :=
  (forall s, env !! "AI_MAX_TOKENS" = Some s -> is_Some (int_of_str b s)) /\
  (forall s, env !! "AI_TEMPERATURE" = Some s -> is_Some (float_of_str b s)).

(** *** Further vocabulary *)

(** The requests handed to [create], one per call, in order. *)
Definition requests (t : trace) : list CompletionRequest :=
  omap (fun e => match e with
                 | CompletionsCreate req => Some req
                 | _ => None
                 end) t.

(** [s] begins, or ends, with a character that [strip] removes. *)
Definition leading_space (s : string) : bool :=
  match Py.drop_one Py.whitespace s with
  | Some _ => true
  | None => false
  end.

Definition trailing_space (s : string) : bool :=
  match Py.drop_one (map String.rev Py.whitespace) (String.rev s) with
  | Some _ => true
  | None => false
  end.

Definition trimmed (s : string) : bool :=
  negb (leading_space s) && negb (trailing_space s).

(** The lines [main] logs before it touches the network (lines 186-197). *)
Definition startup_log (g : Globals) : trace :=
  [ Log INFO "🚀 Pornire AI Telegram Bot...";
    Log INFO ("🤖 Bot Token: " +:+ set_or_missing (TELEGRAM_TOKEN g));
    Log INFO ("🧠 OpenAI Key: " +:+ set_or_missing (OPENAI_API_KEY g));
    Log INFO ("📊 Model AI: " +:+ cfg_model g);
    Log INFO "✅ Bot-ul este gata!";
    Log INFO "📡 Aștept mesaje..." ].

(** * Properties *)

(** ** Strings *)

Lemma drop_prefix_length p s r :
  Py.drop_prefix p s = Some r -> String.length s = String.length p + String.length r.
Proof.
  revert s. induction p as [|a p IH]; intros s H.
  - injection H as ->. done.
  - destruct s as [|b s]; simpl in *; [discriminate|].
    destruct (Ascii.eqb a b); [|discriminate]. rewrite (IH _ H). lia.
Qed.

Lemma drop_one_shorter table s r :
  Forall (fun p => p <> EmptyString) table ->
  Py.drop_one table s = Some r -> String.length r < String.length s.
Proof.
  induction 1 as [|p table Hp _ IH]; simpl; [discriminate|].
  destruct (Py.drop_prefix p s) eqn:E.
  - intros [= ->]. apply drop_prefix_length in E.
    destruct p; [congruence|]. simpl in E. lia.
  - exact IH.
Qed.

Lemma lstrip_aux_done table fuel s :
  Forall (fun p => p <> EmptyString) table ->
  String.length s <= fuel ->
  Py.drop_one table (Py.lstrip_aux table fuel s) = None.
Proof.
  intros Ht. revert s. induction fuel as [|fuel IH]; intros s Hs; simpl.
  - destruct s; [|simpl in Hs; lia].
    destruct (Py.drop_one table EmptyString) eqn:E; [|done].
    apply drop_one_shorter in E; [simpl in E; lia | done].
  - destruct (Py.drop_one table s) eqn:E; [|done].
    apply IH. apply drop_one_shorter in E; [lia | done].
Qed.

Lemma whitespace_nonempty : Forall (fun p => p <> EmptyString) Py.whitespace.
Proof. vm_compute. repeat constructor; discriminate. Qed.

(** The fuel of [lstrip] suffices: nothing is left to remove. *)
Lemma lstrip_done s : Py.drop_one Py.whitespace (Py.lstrip s) = None.
Proof. apply lstrip_aux_done; [apply whitespace_nonempty | done]. Qed.

Lemma prefix_app sub s : String.prefix sub (sub +:+ s) = true.
Proof.
  induction sub as [|a sub IH]; simpl; [by destruct s|].
  destruct (Ascii.ascii_dec a a); [exact IH | done].
Qed.

Lemma contains_here sub s : Py.contains (sub +:+ s) sub = true.
Proof.
  pose proof (prefix_app sub s) as H.
  destruct (sub +:+ s); cbn [Py.contains]; rewrite H; done.
Qed.

Lemma contains_app_r a s sub :
  Py.contains s sub = true -> Py.contains (a +:+ s) sub = true.
Proof.
  intros H. induction a as [|c a IH]; simpl; [done|].
  rewrite IH. apply orb_true_r.
Qed.

Example strip_sample :
  Py.strip "  Bine, mulțumesc!
 " = "Bine, mulțumesc!".
Proof. reflexivity. Qed.

Example strip_unicode_space :
  Py.strip (Py.of_bytes [194; 160; 32; 97; 32; 98; 226; 128; 137]) = "a b".
Proof. reflexivity. Qed.

Example strip_blank : Py.strip "   " = EmptyString.
Proof. reflexivity. Qed.

(** ** The completion client *)

(** What one call does, case by case. *)
Lemma get_ai_response_eq w g user_message user_name t :
  get_ai_response w g user_message user_name t =
  let req := completion_request g user_message user_name in
  let t1 := t ++ [CompletionsCreate req] in
  let failed e :=
    (Returns (Some fallback), t1 ++ [Log ERROR ("❌ Eroare AI: " +:+ str_exn e)]) in
  match completions_create w t1 req with
  | inl e => failed e
  | inr resp =>
      match choices resp with
      | [] => failed (Exn IndexError "list index out of range")
      | ch :: _ =>
          match msg_content (message_of ch) with
          | None =>
              failed (Exn AttributeError
                        "'NoneType' object has no attribute 'strip'")
          | Some c => (Returns (Some (Py.strip c)), t1)
          end
      end
  end.
Proof.
  unfold get_ai_response, try_except, chat_completions_create, bind, emit; simpl.
  destruct (completions_create w _ _) as [e|resp]; [done|].
  destruct (choices resp) as [|ch rest]; [done|]; simpl.
  destruct (msg_content (message_of ch)); done.
Qed.

(** C1: [get_ai_response] never raises.  For every world, configuration,
    input pair and history: when the endpoint answers with a text, the
    function returns that text, stripped, and logs nothing; when the
    [try] block fails with [e] (the call raises, or the answer is
    malformed), it logs that very [e] and returns the fixed fallback
    string; and one of the two is always the case, so no exception
    reaches the caller.  [create] is called once: the function itself
    does not retry. *)
Theorem get_ai_response_never_raises w g user_message user_name t :
  let req := completion_request g user_message user_name in
  let t1 := t ++ [CompletionsCreate req] in
  (forall c,
     endpoint_text w t1 req c ->
     get_ai_response w g user_message user_name t =
       (Returns (Some (Py.strip c)), t1)) /\
  (forall e,
     endpoint_failure w t1 req e ->
     get_ai_response w g user_message user_name t =
       (Returns (Some fallback),
        t1 ++ [Log ERROR ("❌ Eroare AI: " +:+ str_exn e)])) /\
  ((exists c, endpoint_text w t1 req c) \/
   (exists e, endpoint_failure w t1 req e)).
Proof.
  intros req t1. rewrite get_ai_response_eq. cbv zeta. fold req. fold t1.
  split; [|split].
  - intros c (resp & ch & rest & -> & -> & ->). done.
  - intros e [->|[(resp & -> & -> & ->)|(resp & ch & rest & -> & -> & -> & ->)]];
      done.
  - destruct (completions_create w t1 req) as [e|resp] eqn:Hw.
    { right. exists e. by left. }
    destruct (choices resp) as [|ch rest] eqn:Hc.
    { right. eexists. right. left. by exists resp. }
    destruct (msg_content (message_of ch)) as [c|] eqn:Hm.
    + left. exists c. by exists resp, ch, rest.
    + right. eexists. right. right. by exists resp, ch, rest.
Qed.

(** An answer is stripped and returned; a connection error is logged and
    replaced by the fallback. *)
Lemma get_ai_response_never_raises_witness :
  get_ai_response (Sample.quiet (inr (Sample.completion (Some " Bine! "))))
    Sample.globals "Ce faci?" "Maria" [] =
    (Returns (Some "Bine!"),
     [CompletionsCreate (completion_request Sample.globals "Ce faci?" "Maria")]) /\
  get_ai_response Sample.offline Sample.globals "Ce faci?" "Maria" [] =
    (Returns (Some fallback),
     [CompletionsCreate (completion_request Sample.globals "Ce faci?" "Maria");
      Log ERROR "❌ Eroare AI: Connection error."]).
Proof.
  split.
  - apply (proj1 (get_ai_response_never_raises
                    (Sample.quiet (inr (Sample.completion (Some " Bine! "))))
                    Sample.globals "Ce faci?" "Maria" []) " Bine! ").
    eexists _, _, _. repeat split; reflexivity.
  - apply (proj1 (proj2 (get_ai_response_never_raises Sample.offline
                           Sample.globals "Ce faci?" "Maria" []))
             (Exn OpenAIError "Connection error.")).
    left. reflexivity.
Defined.

(** C9: although annotated [Optional[str]], [get_ai_response] returns a
    string and never [None]: the stripped content on success, and the
    fallback on every exception path (the endpoint raising, an empty list
    of choices, a content that is [None]). *)
Theorem get_ai_response_returns_str w g user_message user_name t :
  let req := completion_request g user_message user_name in
  let response := completions_create w (t ++ [CompletionsCreate req]) req in
  fst (get_ai_response w g user_message user_name t) <> Returns None /\
  fst (get_ai_response w g user_message user_name t) =
    Returns (Some
      match response with
      | inl _ => fallback
      | inr resp =>
          match choices resp with
          | [] => fallback
          | ch :: _ =>
              match msg_content (message_of ch) with
              | None => fallback
              | Some c => Py.strip c
              end
          end
      end).
Proof.
  intros req response. rewrite get_ai_response_eq. cbv zeta. fold req.
  fold response. destruct response as [e|resp]; [done|].
  destruct (choices resp) as [|ch rest]; [done|].
  destruct (msg_content (message_of ch)); done.
Qed.

(** C5: the prompt.  Whatever the inputs, the first thing
    [get_ai_response] does is one call of the endpoint with the configured
    model, token limit and temperature and with two messages: a system
    message made of a fixed template around the user's name, and a user
    message holding the input text as it is.  No second call follows.
    Without a user name the name is ["User"]. *)
Theorem get_ai_response_prompt w g user_message user_name t :
  (exists rest,
     snd (get_ai_response w g user_message user_name t) =
       t ++ CompletionsCreate
              {| req_model := cfg_model g;
                 req_messages :=
                   [ {| role := "system"; content := system_prompt user_name |};
                     {| role := "user"; content := user_message |} ];
                 req_max_tokens := cfg_max_tokens g;
                 req_temperature := cfg_temperature g |} :: rest /\
     forall r, CompletionsCreate r ∉ rest) /\
  (exists pre post, forall n, system_prompt n = pre +:+ n +:+ post) /\
  get_ai_response_default w g user_message =
    get_ai_response w g user_message "User".
Proof.
  split; [|split; [by eexists _, _ | done]].
  rewrite get_ai_response_eq. cbv zeta.
  fold (completion_request g user_message user_name).
  set (req := completion_request g user_message user_name).
  assert (Hlog : forall msg r, CompletionsCreate r ∉ [Log ERROR msg]).
  { intros msg r [=]%list_elem_of_singleton. }
  destruct (completions_create w _ req) as [e|resp]; simpl.
  { eexists. rewrite <- app_assoc. split; [done | apply Hlog]. }
  destruct (choices resp) as [|ch rest]; simpl.
  { eexists. rewrite <- app_assoc. split; [done | apply Hlog]. }
  destruct (msg_content (message_of ch)); simpl.
  - exists []. split; [done|]. intros r. apply not_elem_of_nil.
  - eexists. rewrite <- app_assoc. split; [done | apply Hlog].
Qed.

Example get_ai_response_ok :
  get_ai_response (Sample.quiet (inr (Sample.completion (Some " Bine, mulțumesc!
")))) Sample.globals "Ce faci?" "Maria" [] =
  (Returns (Some "Bine, mulțumesc!"),
   [CompletionsCreate (completion_request Sample.globals "Ce faci?" "Maria")]).
Proof. reflexivity. Qed.

Example get_ai_response_offline :
  get_ai_response Sample.offline Sample.globals "Ce faci?" "Maria" [] =
  (Returns (Some fallback),
   [CompletionsCreate (completion_request Sample.globals "Ce faci?" "Maria");
    Log ERROR "❌ Eroare AI: Connection error."]).
Proof. reflexivity. Qed.

Example get_ai_response_no_content :
  fst (get_ai_response (Sample.quiet (inr (Sample.completion None)))
         Sample.globals "Ce faci?" "Maria" []) = Returns (Some fallback).
Proof. reflexivity. Qed.

(** ** The transport *)

Lemma replies_app t1 t2 : replies (t1 ++ t2) = replies t1 ++ replies t2.
Proof. apply omap_app. Qed.

Lemma reply_text_eq w m txt pm t :
  reply_text w m txt pm t =
  answer (send_message w (t ++ [ReplyText (chat m) txt pm]) (chat m) txt pm)
         (t ++ [ReplyText (chat m) txt pm]).
Proof. reflexivity. Qed.

Lemma answer_trace r t : snd (answer r t) = t.
Proof. by destruct r. Qed.

(** ** The message relay *)

Lemma handle_message_eq w g u t m user :
  message u = Some m ->
  effective_user u = Some user ->
  handle_message w g u t =
  let t1 := t ++ [Log INFO ("📩 Mesaj de la " +:+ first_name user +:+ ": " +:+ text m);
                  SendAction (chat m) "typing"] in
  match send_action w t1 (chat m) "typing" with
  | Some e => (Raises e, t1)
  | None =>
      match get_ai_response w g (text m) (first_name user) t1 with
      | (Returns r, t2) => reply_text w m r None t2
      | (Raises e, t2) => (Raises e, t2)
      end
  end.
Proof.
  intros Hm Hu. unfold handle_message, bind at 1. rewrite Hm; simpl.
  unfold bind at 1. rewrite Hu; simpl.
  unfold chat_send_action, logger_info, bind, emit; simpl.
  rewrite <- app_assoc; simpl.
  by destruct (send_action w _ (chat m) "typing").
Qed.

(** The trace ends in the one reply of this run. *)
Local Ltac one_reply Ht1 :=
  cbv zeta; split;
  [ rewrite !replies_app, Ht1; simpl; by rewrite !app_nil_r
  | apply reply_text_eq ].

Local Ltac sends_fallback Ht1 :=
  eexists _, _; split; [done|]; split; [by left | one_reply Ht1].

(** C2, as amended: for an update that carries a message and a sender,
    [handle_message] logs, then emits the typing signal to the message's
    chat.  If the transport refuses the signal, that exception leaves the
    handler and nothing is sent.  Otherwise the completion client is
    called and exactly one reply goes to the same chat, after the typing
    signal; its text is the stripped text of the endpoint or the fallback
    string (it may be empty), and the handler raises exactly what sending
    that reply raises. *)
Theorem handle_message_relays w g u t m user :
  message u = Some m ->
  effective_user u = Some user ->
  let t1 := t ++ [Log INFO ("📩 Mesaj de la " +:+ first_name user +:+ ": " +:+ text m);
                  SendAction (chat m) "typing"] in
  let req := completion_request g (text m) (first_name user) in
  match send_action w t1 (chat m) "typing" with
  | Some e => handle_message w g u t = (Raises e, t1)
  | None =>
      exists r t2,
        get_ai_response w g (text m) (first_name user) t1 = (Returns (Some r), t2) /\
        (r = fallback \/
         exists c, endpoint_text w (t1 ++ [CompletionsCreate req]) req c /\
                   r = Py.strip c) /\
        let t3 := t2 ++ [ReplyText (chat m) (Some r) None] in
        replies t3 = replies t ++ [(chat m, Some r)] /\
        handle_message w g u t =
          answer (send_message w t3 (chat m) (Some r) None) t3
  end.
Proof.
  intros Hm Hu t1 req. rewrite (handle_message_eq _ _ _ _ _ _ Hm Hu).
  cbv zeta. fold t1.
  destruct (send_action w t1 (chat m) "typing"); [done|].
  rewrite get_ai_response_eq. cbv zeta. fold req.
  assert (Ht1 : replies t1 = replies t).
  { unfold t1. rewrite replies_app. simpl. apply app_nil_r. }
  destruct (completions_create w _ req) as [e|resp] eqn:Hw;
    [sends_fallback Ht1|].
  destruct (choices resp) as [|ch rest] eqn:Hc; [sends_fallback Ht1|].
  destruct (msg_content (message_of ch)) as [c|] eqn:Hcontent;
    [|sends_fallback Ht1].
  eexists _, _. split; [done|]. split; [|one_reply Ht1].
  right. exists c. split; [|done]. by exists resp, ch, rest.
Qed.

(** The scenario of section 8: "Ce faci?" answered "Bine, mulțumesc!". *)
Lemma handle_message_relays_witness :
  handle_message (Sample.quiet (inr (Sample.completion (Some "Bine, mulțumesc!"))))
    Sample.globals (Sample.from_maria "Ce faci?") [] =
  (Returns tt,
   [Log INFO "📩 Mesaj de la Maria: Ce faci?";
    SendAction Sample.room "typing";
    CompletionsCreate (completion_request Sample.globals "Ce faci?" "Maria");
    ReplyText Sample.room (Some "Bine, mulțumesc!") None]).
Proof.
  pose proof (handle_message_relays
                (Sample.quiet (inr (Sample.completion (Some "Bine, mulțumesc!"))))
                Sample.globals (Sample.from_maria "Ce faci?") []
                {| chat := Sample.room; text := "Ce faci?" |}
                {| first_name := "Maria" |} eq_refl eq_refl) as H.
  simpl in H. destruct H as (r & t2 & Hr & _ & _ & H).
  vm_compute in Hr. injection Hr as <- <-. exact H.
Defined.

(** C2 as stated fails: when the endpoint answers with blanks only, the
    text handed to the transport is empty; the Bot API refuses it and the
    exception leaves the handler. *)
Lemma handle_message_blank_answer :
  ~ relays_once (Sample.strict (inr (Sample.completion (Some "  "))))
      Sample.globals (Sample.from_maria "Ce faci?").
Proof.
  intros (m & r & t1 & t2 & _ & H & _). vm_compute in H. discriminate H.
Qed.

(** The same answer over a transport that accepts everything: one reply,
    and it is empty. *)
Example handle_message_empty_reply :
  handle_message (Sample.quiet (inr (Sample.completion (Some "  "))))
    Sample.globals (Sample.from_maria "Ce faci?") [] =
  (Returns tt,
   [Log INFO "📩 Mesaj de la Maria: Ce faci?";
    SendAction Sample.room "typing";
    CompletionsCreate (completion_request Sample.globals "Ce faci?" "Maria");
    ReplyText Sample.room (Some EmptyString) None]).
Proof. reflexivity. Qed.

(** Without network the typing signal already fails: no reply at all. *)
Example handle_message_offline :
  handle_message Sample.offline Sample.globals (Sample.from_maria "Ce faci?") [] =
  (Raises (Exn TelegramError "Timed out"),
   [Log INFO "📩 Mesaj de la Maria: Ce faci?"; SendAction Sample.room "typing"]).
Proof. reflexivity. Qed.

(** The endpoint failing is not an error of the relay: the fallback is sent. *)
Example handle_message_fallback :
  handle_message (Sample.quiet (inl (Exn OpenAIError "Request timed out.")))
    Sample.globals (Sample.from_maria "Ce faci?") [] =
  (Returns tt,
   [Log INFO "📩 Mesaj de la Maria: Ce faci?";
    SendAction Sample.room "typing";
    CompletionsCreate (completion_request Sample.globals "Ce faci?" "Maria");
    Log ERROR "❌ Eroare AI: Request timed out.";
    ReplyText Sample.room (Some fallback) None]).
Proof. reflexivity. Qed.

(** ** The error sink *)

(** C3, as amended: [error_handler] first logs the error.  Without a
    message to answer (no update, or an update without effective message)
    it does nothing else and returns.  With one, it sends the apology to
    that message's chat, once, and raises exactly what that send raises. *)
Theorem error_handler_logs_and_apologises w update error t :
  let t1 := t ++ [Log ERROR ("❌ Eroare: " +:+ str_exn error)] in
  match message_context update with
  | None => error_handler w update error t = (Returns tt, t1)
  | Some m =>
      let t2 := t1 ++ [ReplyText (chat m) (Some apology) None] in
      error_handler w update error t =
        answer (send_message w t2 (chat m) (Some apology) None) t2
  end.
Proof.
  unfold error_handler, logger_error, bind, emit; simpl.
  destruct update as [u|]; simpl; [|done].
  destruct (effective_message u) as [m|]; [apply reply_text_eq | done].
Qed.

(** C3 as stated fails: an update with a message, and a network that is
    still down when the apology is sent. *)
Lemma error_handler_throws :
  ~ error_sink_contract Sample.offline (Some (Sample.from_maria "Ce faci?"))
      (Exn TelegramError "Timed out").
Proof.
  intros (t & H & _). vm_compute in H. discriminate H.
Qed.

Example error_handler_no_context :
  error_handler Sample.offline None (Exn TelegramError "Timed out") [] =
  (Returns tt, [Log ERROR "❌ Eroare: Timed out"]).
Proof. reflexivity. Qed.

Example error_handler_apology :
  error_handler (Sample.quiet (inl (Exn OpenAIError "Connection error.")))
    (Some (Sample.from_maria "Ce faci?")) (Exn ValueError "boom") [] =
  (Returns tt,
   [Log ERROR "❌ Eroare: boom"; ReplyText Sample.room (Some apology) None]).
Proof. reflexivity. Qed.

(** ** The command responders *)

Example setup_bot_commands :
  command_handlers setup_bot =
  [("start", start_command); ("help", help_command); ("about", about_command)].
Proof. reflexivity. Qed.

Lemma start_command_eq w u t m user :
  message u = Some m ->
  effective_user u = Some user ->
  start_command w u t =
  reply_text w m (Some (welcome_message (first_name user))) None t.
Proof.
  intros Hm Hu. unfold start_command, bind at 1. rewrite Hu; simpl.
  unfold bind at 1. by rewrite Hm.
Qed.

Lemma help_command_eq w u t :
  help_command w u t =
  match message u with
  | Some m => reply_text w m (Some help_text) (Some "Markdown") t
  | None =>
      (Raises (Exn AttributeError
                 "'NoneType' object has no attribute 'reply_text'"), t)
  end.
Proof. unfold help_command, bind at 1. by destruct (message u). Qed.

Lemma about_command_eq w u t :
  about_command w u t =
  match message u with
  | Some m => reply_text w m (Some about_text) None t
  | None =>
      (Raises (Exn AttributeError
                 "'NoneType' object has no attribute 'reply_text'"), t)
  end.
Proof. unfold about_command, bind at 1. by destruct (message u). Qed.

(** C6: each responder is a function of the command and the sender's
    name.  For a command and a name there is one text (and parse mode)
    such that every invocation of that command for a sender of that name,
    in any world, after any history, on any message, emits that one
    reply and nothing else: no call of the completion client, no other
    effect whose result could enter the text. *)
Theorem responders_pure c n :
  exists txt pm,
    forall w u t m user,
      message u = Some m ->
      effective_user u = Some user ->
      first_name user = n ->
      let t' := t ++ [ReplyText (chat m) (Some txt) pm] in
      responder c w u t = answer (send_message w t' (chat m) (Some txt) pm) t'.
Proof.
  destruct c; simpl.
  - exists (welcome_message n), None. intros w u t m user Hm Hu <-.
    rewrite (start_command_eq _ _ _ _ _ Hm Hu). apply reply_text_eq.
  - exists help_text, (Some "Markdown"). intros w u t m user Hm _ _.
    rewrite help_command_eq, Hm. apply reply_text_eq.
  - exists about_text, None. intros w u t m user Hm _ _.
    rewrite about_command_eq, Hm. apply reply_text_eq.
Qed.

(** Two invocations of /start for "Maria", in different worlds and after
    different histories, send the same text. *)
Lemma responders_pure_witness :
  replies (snd (responder Start (Sample.quiet (inl (Exn OpenAIError "Connection error.")))
                  (Sample.from_maria "/start") [])) =
  replies (snd (responder Start Sample.offline
                  (Sample.from_maria "/start") [Log INFO "earlier"])).
Proof.
  destruct (responders_pure Start "Maria") as (txt & pm & H).
  rewrite (H _ (Sample.from_maria "/start") [] _ _ eq_refl eq_refl eq_refl).
  rewrite (H _ (Sample.from_maria "/start") [Log INFO "earlier"] _ _
             eq_refl eq_refl eq_refl).
  reflexivity.
Defined.

(** C7: the reply to /start contains the sender's first name and names
    the three commands. *)
Theorem start_command_mentions w u t m user :
  message u = Some m ->
  effective_user u = Some user ->
  exists txt,
    snd (start_command w u t) = t ++ [ReplyText (chat m) (Some txt) None] /\
    Py.contains txt (first_name user) = true /\
    Py.contains txt "/start" = true /\
    Py.contains txt "/help" = true /\
    Py.contains txt "/about" = true.
Proof.
  intros Hm Hu. exists (welcome_message (first_name user)).
  rewrite (start_command_eq _ _ _ _ _ Hm Hu), reply_text_eq, answer_trace.
  split; [done|]. unfold welcome_message.
  split; [apply contains_app_r, contains_here|].
  repeat split; do 2 apply contains_app_r; reflexivity.
Qed.

Lemma start_command_mentions_witness :
  exists txt,
    snd (start_command Sample.offline (Sample.from_maria "/start") []) =
      [ReplyText Sample.room (Some txt) None] /\
    Py.contains txt "Maria" = true /\
    Py.contains txt "/start" = true /\
    Py.contains txt "/help" = true /\
    Py.contains txt "/about" = true.
Proof.
  exact (start_command_mentions Sample.offline (Sample.from_maria "/start") []
           {| chat := Sample.room; text := "/start" |}
           {| first_name := "Maria" |} eq_refl eq_refl).
Defined.

(** C10: the texts of /help and /about are constants.  For each of the
    two commands there is one text (and parse mode) that every invocation
    sends, whatever the update, the world and the history; an update
    without a message gets no reply at all. *)
Theorem static_replies c :
  c <> Start ->
  exists txt pm,
    forall w u t,
      match message u with
      | Some m =>
          let t' := t ++ [ReplyText (chat m) (Some txt) pm] in
          responder c w u t =
            answer (send_message w t' (chat m) (Some txt) pm) t'
      | None => snd (responder c w u t) = t
      end.
Proof.
  intros Hc. destruct c; [done| |]; simpl.
  - exists help_text, (Some "Markdown"). intros w u t.
    rewrite help_command_eq. destruct (message u); [apply reply_text_eq | done].
  - exists about_text, None. intros w u t.
    rewrite about_command_eq. destruct (message u); [apply reply_text_eq | done].
Qed.

(** /help for two senders, two chats, two worlds: the same text. *)
Lemma static_replies_witness :
  map snd (replies (snd (responder Help Sample.offline
                           (Sample.from_maria "/help") []))) =
  map snd (replies (snd (responder Help (Sample.quiet (inl (Exn OpenAIError "Connection error.")))
                           {| message := Some {| chat := {| chat_id := 7 |};
                                                 text := "/help now" |};
                              effective_user := Some {| first_name := "Ion" |};
                              effective_message := None |}
                           [Log INFO "earlier"]))).
Proof.
  destruct (static_replies Help) as (txt & pm & H); [discriminate|].
  pose proof (H Sample.offline (Sample.from_maria "/help") []) as H1.
  pose proof (H (Sample.quiet (inl (Exn OpenAIError "Connection error.")))
                {| message := Some {| chat := {| chat_id := 7 |};
                                      text := "/help now" |};
                   effective_user := Some {| first_name := "Ion" |};
                   effective_message := None |}
                [Log INFO "earlier"]) as H2.
  cbn [message Sample.from_maria] in H1, H2. rewrite H1, H2. reflexivity.
Defined.

(** ** Configuration and startup *)

Lemma AI_MAX_TOKENS_eq b env t :
  AI_MAX_TOKENS b env t =
  match env !! "AI_MAX_TOKENS" with
  | None => (Returns 500%Z, t)
  | Some s =>
      match int_of_str b s with
      | Some n => (Returns n, t)
      | None =>
          (Raises (Exn ValueError
                     ("invalid literal for int() with base 10: '" +:+ s +:+ "'")), t)
      end
  end.
Proof.
  unfold AI_MAX_TOKENS, getenv_default, py_int.
  destruct (env !! "AI_MAX_TOKENS") as [s|]; [|done].
  by destruct (int_of_str b s).
Qed.

Lemma AI_TEMPERATURE_eq b env t :
  AI_TEMPERATURE b env t =
  match env !! "AI_TEMPERATURE" with
  | None => (Returns 0.7%float, t)
  | Some s =>
      match float_of_str b s with
      | Some x => (Returns x, t)
      | None =>
          (Raises (Exn ValueError
                     ("could not convert string to float: '" +:+ s +:+ "'")), t)
      end
  end.
Proof.
  unfold AI_TEMPERATURE, getenv_default, py_float.
  destruct (env !! "AI_TEMPERATURE") as [s|]; [|done].
  by destruct (float_of_str b s).
Qed.

Lemma check_env_eq token key t :
  check_env token key t =
  if negb (truthy token) then
    (Raises (Exn ValueError "TELEGRAM_BOT_TOKEN lipsă"),
     t ++ [Log ERROR "❌ TELEGRAM_BOT_TOKEN nu este setat în .env"])
  else if negb (truthy key) then
    (Raises (Exn ValueError "OPENAI_API_KEY lipsă"),
     t ++ [Log ERROR "❌ OPENAI_API_KEY nu este setat în .env"])
  else (Returns tt, t).
Proof.
  unfold check_env, bind, logger_error, emit, raise, ret.
  by destruct (truthy token), (truthy key).
Qed.

Lemma numbers_parse_values b env t :
  numbers_parse b env ->
  exists n x,
    AI_MAX_TOKENS b env t = (Returns n, t) /\
    AI_TEMPERATURE b env t = (Returns x, t).
Proof.
  intros [Hi Hf]. rewrite AI_MAX_TOKENS_eq, AI_TEMPERATURE_eq.
  destruct (env !! "AI_MAX_TOKENS") as [s|].
  - destruct (Hi s eq_refl) as [n ->].
    destruct (env !! "AI_TEMPERATURE") as [s'|]; [|by eexists _, _].
    destruct (Hf s' eq_refl) as [x ->]. by eexists _, _.
  - destruct (env !! "AI_TEMPERATURE") as [s'|]; [|by eexists _, _].
    destruct (Hf s' eq_refl) as [x ->]. by eexists _, _.
Qed.

Lemma module_init_eq b env t n x :
  AI_MAX_TOKENS b env t = (Returns n, t) ->
  AI_TEMPERATURE b env t = (Returns x, t) ->
  module_init b env t =
  match check_env (env !! "TELEGRAM_BOT_TOKEN") (env !! "OPENAI_API_KEY") t with
  | (Returns _, t') =>
      (Returns {| TELEGRAM_TOKEN := env !! "TELEGRAM_BOT_TOKEN";
                  OPENAI_API_KEY := env !! "OPENAI_API_KEY";
                  cfg_model := AI_MODEL env;
                  cfg_max_tokens := n;
                  cfg_temperature := x |}, t')
  | (Raises e, t') => (Raises e, t')
  end.
Proof.
  intros Hn Hx. unfold module_init, bind at 1. rewrite Hn.
  unfold bind at 1. rewrite Hx. unfold bind, getenv.
  by destruct (check_env _ _ t) as [[[]|e] t'].
Qed.

Lemma script_raises b w env t e t' :
  module_init b env t = (Raises e, t') -> script b w env t = (Raises e, t').
Proof. intros H. unfold script, bind. by rewrite H. Qed.

(** C4, as amended: provided [AI_MAX_TOKENS] and [AI_TEMPERATURE] are
    unset or well formed, a missing or empty [TELEGRAM_BOT_TOKEN] or
    [OPENAI_API_KEY] makes the script log which one is missing and raise
    before polling starts; with both present the module-level code runs
    to its end. *)
Theorem startup_check b w env :
  numbers_parse b env -> startup_contract b w env.
Proof.
  intros Hp. destruct (numbers_parse_values b env [] Hp) as (n & x & Hn & Hx).
  pose proof (module_init_eq b env [] n x Hn Hx) as Hinit.
  rewrite check_env_eq in Hinit.
  split; [|split].
  - intros Ht. rewrite Ht in Hinit; simpl in Hinit.
    eexists _, _. split; [apply script_raises, Hinit|].
    split; [apply list_elem_of_singleton; done|].
    intros [=]%list_elem_of_singleton.
  - intros Ht Hk. rewrite Ht, Hk in Hinit; simpl in Hinit.
    eexists _, _. split; [apply script_raises, Hinit|].
    split; [apply list_elem_of_singleton; done|].
    intros [=]%list_elem_of_singleton.
  - intros Ht Hk. rewrite Ht, Hk in Hinit; simpl in Hinit. by eexists.
Qed.

Lemma startup_check_witness :
  startup_contract Sample.builtins Sample.offline
    {[ "OPENAI_API_KEY" := "sk-test"; "AI_MAX_TOKENS" := "1000" ]}.
Proof.
  apply startup_check. split; intros s H; vm_compute in H.
  - injection H as <-. vm_compute. eauto.
  - discriminate H.
Defined.

(** C4 as stated fails: the numeric settings are read before the check, so
    with a malformed [AI_MAX_TOKENS] the script raises from [int] and the
    missing token is never reported. *)
Lemma startup_without_report :
  ~ startup_contract Sample.builtins Sample.offline {[ "AI_MAX_TOKENS" := "abc" ]}.
Proof.
  intros [H _]. destruct H as (e & t & H & Hlog & _); [reflexivity|].
  vm_compute in H. injection H as _ <-. by apply not_elem_of_nil in Hlog.
Qed.

(** X11: In every environment, a missing credential stops the script with a
    [ValueError] before polling starts. *)
Lemma missing_credential_stops b w env :
  truthy (env !! "TELEGRAM_BOT_TOKEN") && truthy (env !! "OPENAI_API_KEY") = false ->
  exists msg t,
    script b w env [] = (Raises (Exn ValueError msg), t) /\ StartPolling ∉ t.
Proof.
  intros Hmiss. unfold script, module_init, bind at 1 2.
  rewrite AI_MAX_TOKENS_eq.
  assert (Hnil : StartPolling ∉ @nil event) by apply not_elem_of_nil.
  destruct (env !! "AI_MAX_TOKENS") as [s|]; [destruct (int_of_str b s)|];
    try by eexists _, _.
  all: unfold bind at 1; rewrite AI_TEMPERATURE_eq.
  all: destruct (env !! "AI_TEMPERATURE") as [s'|]; [destruct (float_of_str b s')|];
    try by eexists _, _.
  all: unfold bind at 1, getenv; rewrite check_env_eq.
  all: destruct (truthy (env !! "TELEGRAM_BOT_TOKEN")); simpl;
    [destruct (truthy (env !! "OPENAI_API_KEY")); [done|]; simpl|].
  all: eexists _, _; (split; [done|]); intros [=]%list_elem_of_singleton.
Qed.

Example startup_token_missing :
  script Sample.builtins Sample.offline {[ "OPENAI_API_KEY" := "sk-test" ]} [] =
  (Raises (Exn ValueError "TELEGRAM_BOT_TOKEN lipsă"),
   [Log ERROR "❌ TELEGRAM_BOT_TOKEN nu este setat în .env"]).
Proof. vm_compute. reflexivity. Qed.

Example startup_key_empty :
  script Sample.builtins Sample.offline
    {[ "TELEGRAM_BOT_TOKEN" := "123:abc"; "OPENAI_API_KEY" := EmptyString ]} [] =
  (Raises (Exn ValueError "OPENAI_API_KEY lipsă"),
   [Log ERROR "❌ OPENAI_API_KEY nu este setat în .env"]).
Proof. vm_compute. reflexivity. Qed.

Example startup_polls :
  script Sample.builtins (Sample.quiet (inl (Exn OpenAIError "Connection error.")))
    {[ "TELEGRAM_BOT_TOKEN" := "123:abc"; "OPENAI_API_KEY" := "sk-test" ]} [] =
  (Returns tt,
   [Log INFO "🚀 Pornire AI Telegram Bot...";
    Log INFO "🤖 Bot Token: ✅ Setat";
    Log INFO "🧠 OpenAI Key: ✅ Setat";
    Log INFO "📊 Model AI: gpt-3.5-turbo";
    Log INFO "✅ Bot-ul este gata!";
    Log INFO "📡 Aștept mesaje...";
    AppInitialize; AppStart; StartPolling]).
Proof. vm_compute. reflexivity. Qed.

Lemma module_init_returns b env t g t' :
  module_init b env t = (Returns g, t') ->
  cfg_model g = AI_MODEL env /\
  AI_MAX_TOKENS b env t = (Returns (cfg_max_tokens g), t) /\
  AI_TEMPERATURE b env t = (Returns (cfg_temperature g), t).
Proof.
  unfold module_init, bind at 1.
  destruct (AI_MAX_TOKENS b env t) as [[n|e] t1] eqn:Hn; [|discriminate].
  pose proof (AI_MAX_TOKENS_eq b env t) as Hn'. rewrite Hn in Hn'.
  assert (t1 = t) as ->.
  { destruct (env !! "AI_MAX_TOKENS") as [s|];
      [destruct (int_of_str b s)|]; congruence. }
  unfold bind at 1.
  destruct (AI_TEMPERATURE b env t) as [[x|e] t1] eqn:Hx; [|discriminate].
  pose proof (AI_TEMPERATURE_eq b env t) as Hx'. rewrite Hx in Hx'.
  assert (t1 = t) as ->.
  { destruct (env !! "AI_TEMPERATURE") as [s|];
      [destruct (float_of_str b s)|]; congruence. }
  unfold bind. destruct (check_env _ _ t) as [[[]|e] t1]; [|discriminate].
  by intros [= <- _].
Qed.

(** C8: the configuration values.  Unset, the model is "gpt-3.5-turbo",
    the token limit 500 and the temperature 0.7.  Set, the model is the
    given string, the token limit what [int] reads and the temperature
    what [float] reads.  These are the values the module keeps once its
    top-level code has run. *)
Theorem config_values b env t :
  (env !! "AI_MODEL" = None -> AI_MODEL env = "gpt-3.5-turbo") /\
  (env !! "AI_MAX_TOKENS" = None -> AI_MAX_TOKENS b env t = (Returns 500%Z, t)) /\
  (env !! "AI_TEMPERATURE" = None ->
   AI_TEMPERATURE b env t = (Returns 0.7%float, t)) /\
  (forall v, env !! "AI_MODEL" = Some v -> AI_MODEL env = v) /\
  (forall s n, env !! "AI_MAX_TOKENS" = Some s -> int_of_str b s = Some n ->
               AI_MAX_TOKENS b env t = (Returns n, t)) /\
  (forall s x, env !! "AI_TEMPERATURE" = Some s -> float_of_str b s = Some x ->
               AI_TEMPERATURE b env t = (Returns x, t)) /\
  (forall g t', module_init b env t = (Returns g, t') ->
                cfg_model g = AI_MODEL env /\
                AI_MAX_TOKENS b env t = (Returns (cfg_max_tokens g), t) /\
                AI_TEMPERATURE b env t = (Returns (cfg_temperature g), t)).
Proof.
  split; [|split; [|split; [|split; [|split; [|split]]]]];
    try apply module_init_returns.
  all: rewrite ?AI_MAX_TOKENS_eq, ?AI_TEMPERATURE_eq;
    unfold AI_MODEL, getenv_default.
  - by intros ->.
  - by intros ->.
  - by intros ->.
  - by intros v ->.
  - by intros s n -> ->.
  - by intros s x -> ->.
Qed.

Lemma config_values_witness :
  (AI_MODEL ∅ = "gpt-3.5-turbo" /\
   AI_MAX_TOKENS Sample.builtins ∅ [] = (Returns 500%Z, []) /\
   AI_TEMPERATURE Sample.builtins ∅ [] = (Returns 0.7%float, [])) /\
  (AI_MODEL Sample.tuned = "gpt-4o" /\
   AI_MAX_TOKENS Sample.builtins Sample.tuned [] = (Returns 1000%Z, []) /\
   AI_TEMPERATURE Sample.builtins Sample.tuned [] = (Returns 0.2%float, [])).
Proof.
  destruct (config_values Sample.builtins ∅ []) as (H1 & H2 & H3 & _).
  destruct (config_values Sample.builtins Sample.tuned [])
    as (_ & _ & _ & H4 & H5 & H6 & _).
  split; split_and!.
  - apply H1. reflexivity.
  - apply H2. reflexivity.
  - apply H3. reflexivity.
  - apply H4. vm_compute. reflexivity.
  - apply (H5 "1000"); vm_compute; reflexivity.
  - apply (H6 "0.2"); vm_compute; reflexivity.
Defined.

(** * Further properties *)

(** ** Reversal and trimming *)

Lemma str_app_cons x (a b : string) : String x a +:+ b = String x (a +:+ b).
Proof. reflexivity. Qed.

Lemma str_app_assoc (a b c : string) : (a +:+ b) +:+ c = a +:+ (b +:+ c).
Proof.
  induction a as [|x a IH]; [done|]. by rewrite !str_app_cons, IH.
Qed.

Lemma str_app_nil_r (a : string) : a +:+ EmptyString = a.
Proof.
  induction a as [|x a IH]; [done|]. by rewrite str_app_cons, IH.
Qed.

Lemma rev_app_length s1 s2 :
  String.length (String.rev_app s1 s2) = String.length s1 + String.length s2.
Proof.
  revert s2. induction s1 as [|a s1 IH]; intros s2; simpl; [done|].
  rewrite IH. simpl. lia.
Qed.

Lemma str_rev_length s : String.length (String.rev s) = String.length s.
Proof. unfold String.rev. rewrite rev_app_length. simpl. lia. Qed.

Lemma rev_app_rev_app s1 s2 s3 :
  String.rev_app (String.rev_app s1 s2) s3 = String.rev_app s2 (s1 +:+ s3).
Proof.
  revert s2 s3. induction s1 as [|a s1 IH]; intros s2 s3; simpl; [done|].
  by rewrite IH.
Qed.

Lemma str_rev_involutive s : String.rev (String.rev s) = s.
Proof. unfold String.rev. rewrite rev_app_rev_app. simpl. apply str_app_nil_r. Qed.

Lemma rev_app_acc s1 s2 : String.rev_app s1 s2 = String.rev s1 +:+ s2.
Proof.
  unfold String.rev. revert s2.
  induction s1 as [|a s1 IH]; intros s2; simpl; [done|].
  rewrite (IH (String a s2)), (IH (String a EmptyString)), str_app_assoc. done.
Qed.

Lemma rev_app_app a b acc :
  String.rev_app (a +:+ b) acc = String.rev_app b (String.rev_app a acc).
Proof. revert acc. induction a as [|x a IH]; intros acc; simpl; done. Qed.

Lemma str_rev_app a b : String.rev (a +:+ b) = String.rev b +:+ String.rev a.
Proof. unfold String.rev at 1. rewrite rev_app_app. apply rev_app_acc. Qed.

Lemma drop_prefix_split p s r : Py.drop_prefix p s = Some r -> s = p +:+ r.
Proof.
  revert s. induction p as [|a p IH]; intros s H; simpl in H.
  - by injection H as ->.
  - destruct s as [|b s]; [discriminate|].
    destruct (Ascii.eqb_spec a b) as [->|]; [|discriminate].
    by rewrite str_app_cons, <- (IH _ H).
Qed.

Lemma drop_prefix_more p s r x :
  Py.drop_prefix p s = Some r -> Py.drop_prefix p (s +:+ x) = Some (r +:+ x).
Proof.
  revert s. induction p as [|a p IH]; intros s H; simpl in H.
  - by injection H as ->.
  - destruct s as [|b s]; [discriminate|]. rewrite str_app_cons. simpl.
    destruct (Ascii.eqb a b); [by apply IH | discriminate].
Qed.

Lemma drop_one_split table s r :
  Py.drop_one table s = Some r -> exists p, s = p +:+ r.
Proof.
  induction table as [|p table IH]; simpl; [discriminate|].
  destruct (Py.drop_prefix p s) eqn:E; [|exact IH].
  intros [= ->]. exists p. by apply drop_prefix_split.
Qed.

Lemma drop_one_more table s x :
  Py.drop_one table (s +:+ x) = None -> Py.drop_one table s = None.
Proof.
  induction table as [|p table IH]; simpl; [done|].
  destruct (Py.drop_prefix p s) eqn:E.
  - by rewrite (drop_prefix_more _ _ _ x E).
  - destruct (Py.drop_prefix p (s +:+ x)); [discriminate | exact IH].
Qed.

Lemma lstrip_aux_suffix table fuel s :
  exists x, s = x +:+ Py.lstrip_aux table fuel s.
Proof.
  revert s. induction fuel as [|fuel IH]; intros s; simpl.
  - by exists EmptyString.
  - destruct (Py.drop_one table s) as [r|] eqn:E; [|by exists EmptyString].
    destruct (drop_one_split _ _ _ E) as [p ->].
    destruct (IH r) as [x Hx]. exists (p +:+ x).
    by rewrite str_app_assoc, <- Hx.
Qed.

Lemma lstrip_aux_id table fuel s :
  Py.drop_one table s = None -> Py.lstrip_aux table fuel s = s.
Proof. intros H. destruct fuel; simpl; [done | by rewrite H]. Qed.

Lemma rstrip_prefix s : exists x, s = Py.rstrip s +:+ x.
Proof.
  unfold Py.rstrip.
  destruct (lstrip_aux_suffix (map String.rev Py.whitespace)
              (String.length s) (String.rev s)) as [y Hy].
  exists (String.rev y).
  rewrite <- str_rev_app, <- Hy. symmetry. apply str_rev_involutive.
Qed.

Lemma whitespace_rev_nonempty :
  Forall (fun p => p <> EmptyString) (map String.rev Py.whitespace).
Proof. vm_compute. repeat constructor; discriminate. Qed.

(** What [strip] returns neither begins nor ends with a character it
    removes. *)
Lemma strip_trimmed s : trimmed (Py.strip s) = true.
Proof.
  unfold trimmed, leading_space, trailing_space, Py.strip.
  destruct (rstrip_prefix (Py.lstrip s)) as [x Hx].
  rewrite (drop_one_more Py.whitespace (Py.rstrip (Py.lstrip s)) x);
    [|rewrite <- Hx; apply lstrip_done].
  unfold Py.rstrip at 1. rewrite str_rev_involutive.
  rewrite lstrip_aux_done;
    [done | apply whitespace_rev_nonempty | by rewrite str_rev_length].
Qed.

(** A string with nothing to remove is left as it is. *)
Lemma strip_id s : trimmed s = true -> Py.strip s = s.
Proof.
  unfold trimmed, leading_space, trailing_space. intros [Hl Hr]%andb_true_iff.
  destruct (Py.drop_one Py.whitespace s) eqn:El; [discriminate|].
  destruct (Py.drop_one _ (String.rev s)) eqn:Er; [discriminate|].
  unfold Py.strip, Py.lstrip. rewrite (lstrip_aux_id _ _ _ El).
  unfold Py.rstrip. rewrite (lstrip_aux_id _ _ _ Er). apply str_rev_involutive.
Qed.

Lemma strip_idempotent s : Py.strip (Py.strip s) = Py.strip s.
Proof. apply strip_id, strip_trimmed. Qed.

(** ** More on the completion client and the relay *)

Lemma requests_app t1 t2 : requests (t1 ++ t2) = requests t1 ++ requests t2.
Proof. apply omap_app. Qed.

(** X1: Every string [get_ai_response] returns is trimmed: the answer of the
    endpoint because it went through [strip], the fallback because it
    begins and ends with a visible character. *)
Theorem get_ai_response_trimmed w g user_message user_name t :
  exists s,
    fst (get_ai_response w g user_message user_name t) = Returns (Some s) /\
    trimmed s = true.
Proof.
  rewrite get_ai_response_eq. cbv zeta.
  destruct (completions_create w _ _) as [e|resp]; [by exists fallback|].
  destruct (choices resp) as [|ch rest]; [by exists fallback|].
  destruct (msg_content (message_of ch)) as [c|]; [|by exists fallback].
  exists (Py.strip c). split; [done | apply strip_trimmed].
Qed.

(** X2: An answer of the endpoint that is already trimmed reaches the chat
    unchanged: after the typing signal the handler calls the endpoint and
    sends that very text, and nothing is logged besides the incoming
    message. *)
Theorem handle_message_verbatim w g u t m user c :
  message u = Some m ->
  effective_user u = Some user ->
  let t1 := t ++ [Log INFO ("📩 Mesaj de la " +:+ first_name user +:+ ": " +:+ text m);
                  SendAction (chat m) "typing"] in
  let req := completion_request g (text m) (first_name user) in
  send_action w t1 (chat m) "typing" = None ->
  endpoint_text w (t1 ++ [CompletionsCreate req]) req c ->
  trimmed c = true ->
  let t3 := t1 ++ [CompletionsCreate req; ReplyText (chat m) (Some c) None] in
  handle_message w g u t = answer (send_message w t3 (chat m) (Some c) None) t3.
Proof.
  intros Hm Hu t1 req Htyping (resp & ch & rest & Hw & Hc & Hcontent) Hc' t3.
  rewrite (handle_message_eq _ _ _ _ _ _ Hm Hu). cbv zeta. fold t1.
  rewrite Htyping, get_ai_response_eq. cbv zeta. fold req.
  rewrite Hw, Hc, Hcontent, (strip_id _ Hc'), reply_text_eq.
  unfold t3. by rewrite <- app_assoc.
Qed.

Lemma handle_message_verbatim_witness :
  handle_message (Sample.strict (inr (Sample.completion (Some "Bine, mulțumesc!"))))
    Sample.globals (Sample.from_maria "Ce faci?") [] =
  (Returns tt,
   [Log INFO "📩 Mesaj de la Maria: Ce faci?";
    SendAction Sample.room "typing";
    CompletionsCreate (completion_request Sample.globals "Ce faci?" "Maria");
    ReplyText Sample.room (Some "Bine, mulțumesc!") None]).
Proof.
  apply (handle_message_verbatim
           (Sample.strict (inr (Sample.completion (Some "Bine, mulțumesc!"))))
           Sample.globals (Sample.from_maria "Ce faci?") []
           {| chat := Sample.room; text := "Ce faci?" |}
           {| first_name := "Maria" |} "Bine, mulțumesc!" eq_refl eq_refl eq_refl).
  - eexists _, _, _. repeat split; reflexivity.
  - vm_compute. reflexivity.
Defined.

(** X3: For a message with a sender the handler calls [create] exactly
    once when the typing signal is accepted, with the request built from
    that message's text and the sender's first name, and not at all when
    the typing signal raises.  This counts the calls the handler makes,
    not the attempts the client makes inside one call. *)
Theorem handle_message_requests w g u t m user :
  message u = Some m ->
  effective_user u = Some user ->
  let t1 := t ++ [Log INFO ("📩 Mesaj de la " +:+ first_name user +:+ ": " +:+ text m);
                  SendAction (chat m) "typing"] in
  requests (snd (handle_message w g u t)) =
  requests t ++
  match send_action w t1 (chat m) "typing" with
  | Some _ => []
  | None => [completion_request g (text m) (first_name user)]
  end.
Proof.
  intros Hm Hu t1. rewrite (handle_message_eq _ _ _ _ _ _ Hm Hu).
  cbv zeta. fold t1.
  assert (Ht1 : requests t1 = requests t).
  { unfold t1. rewrite requests_app. simpl. apply app_nil_r. }
  destruct (send_action w t1 (chat m) "typing"); simpl.
  { by rewrite Ht1, app_nil_r. }
  rewrite get_ai_response_eq. cbv zeta.
  destruct (completions_create w _ _) as [e|resp];
    [|destruct (choices resp) as [|ch rest];
      [|destruct (msg_content (message_of ch))]];
    rewrite reply_text_eq, answer_trace, !requests_app, Ht1; simpl;
    by rewrite ?app_nil_r.
Qed.

Lemma handle_message_requests_witness :
  requests (snd (handle_message
                   (Sample.quiet (inr (Sample.completion (Some "Bine!"))))
                   Sample.globals (Sample.from_maria "Ce faci?") [])) =
    [completion_request Sample.globals "Ce faci?" "Maria"] /\
  requests (snd (handle_message Sample.offline Sample.globals
                   (Sample.from_maria "Ce faci?") [])) = [].
Proof.
  split.
  - rewrite (handle_message_requests
               (Sample.quiet (inr (Sample.completion (Some "Bine!"))))
               Sample.globals (Sample.from_maria "Ce faci?") []
               {| chat := Sample.room; text := "Ce faci?" |}
               {| first_name := "Maria" |} eq_refl eq_refl).
    reflexivity.
  - rewrite (handle_message_requests Sample.offline Sample.globals
               (Sample.from_maria "Ce faci?") []
               {| chat := Sample.room; text := "Ce faci?" |}
               {| first_name := "Maria" |} eq_refl eq_refl).
    reflexivity.
Defined.

(** X4: An update whose [message] is [None] makes the relay and every command
    responder raise [AttributeError] before any effect: nothing is logged,
    sent or asked. *)
Theorem handlers_need_message w g u t :
  message u = None ->
  (exists e, handle_message w g u t = (Raises e, t) /\
             exn_cls e = AttributeError) /\
  (forall c, exists e, responder c w u t = (Raises e, t) /\
                       exn_cls e = AttributeError).
Proof.
  intros Hm. split.
  - unfold handle_message, bind at 1. rewrite Hm. by eexists.
  - intros [].
    + unfold responder, start_command, bind at 1.
      destruct (effective_user u); simpl; [|by eexists].
      unfold bind. rewrite Hm. by eexists.
    + unfold responder. rewrite help_command_eq, Hm. by eexists.
    + unfold responder. rewrite about_command_eq, Hm. by eexists.
Qed.

Lemma handlers_need_message_witness :
  exists e,
    handle_message Sample.offline Sample.globals
      {| message := None;
         effective_user := Some {| first_name := "Maria" |};
         effective_message :=
           Some {| chat := Sample.room; text := "Ce faci?" |} |} [] =
      (Raises e, []) /\
    exn_cls e = AttributeError.
Proof.
  exact (proj1 (handlers_need_message Sample.offline Sample.globals
                  {| message := None;
                     effective_user := Some {| first_name := "Maria" |};
                     effective_message :=
                       Some {| chat := Sample.room; text := "Ce faci?" |} |}
                  [] eq_refl)).
Defined.

(** X5: A message without a sender ([effective_user] is [None]) makes the
    relay and /start raise [AttributeError] before any effect. *)
Theorem handlers_need_sender w g u t :
  effective_user u = None ->
  (exists e, handle_message w g u t = (Raises e, t) /\
             exn_cls e = AttributeError) /\
  (exists e, start_command w u t = (Raises e, t) /\
             exn_cls e = AttributeError).
Proof.
  intros Hu. split.
  - unfold handle_message, bind at 1.
    destruct (message u); simpl; [|by eexists].
    unfold bind. rewrite Hu. by eexists.
  - unfold start_command, bind. rewrite Hu. by eexists.
Qed.

Lemma handlers_need_sender_witness :
  exists e,
    start_command Sample.offline
      {| message := Some {| chat := Sample.room; text := "/start" |};
         effective_user := None;
         effective_message :=
           Some {| chat := Sample.room; text := "/start" |} |} [] =
      (Raises e, []) /\
    exn_cls e = AttributeError.
Proof.
  exact (proj2 (handlers_need_sender Sample.offline Sample.globals
                  {| message := Some {| chat := Sample.room; text := "/start" |};
                     effective_user := None;
                     effective_message :=
                       Some {| chat := Sample.room; text := "/start" |} |}
                  [] eq_refl)).
Defined.

(** ** More on startup *)

Lemma main_eq w g t :
  main w g t =
  let t1 := t ++ startup_log g ++ [AppInitialize] in
  match app_initialize w t1 with
  | Some e => (Raises e, t1)
  | None =>
      let t2 := t1 ++ [AppStart] in
      match app_start w t2 with
      | Some e => (Raises e, t2)
      | None =>
          let t3 := t2 ++ [StartPolling] in
          match start_polling w t3 with
          | Some e => (Raises e, t3)
          | None => (Returns setup_bot, t3)
          end
      end
  end.
Proof.
  unfold main, logger_info, bind, emit, startup_log; simpl.
  rewrite <- !app_assoc; simpl.
  destruct (app_initialize w _); [done|]; simpl.
  rewrite <- !app_assoc; simpl.
  destruct (app_start w _); [done|]; simpl.
  rewrite <- !app_assoc; simpl.
  by destruct (start_polling w _).
Qed.

(** What [main] adds to the trace: its log lines, then some of the three
    calls to the application. *)
Lemma main_trace w g t :
  exists rest,
    snd (main w g t) = t ++ startup_log g ++ rest /\
    Forall (fun e => e = AppInitialize \/ e = AppStart \/ e = StartPolling) rest.
Proof.
  rewrite main_eq. cbv zeta.
  destruct (app_initialize w _); simpl.
  { exists [AppInitialize]. split; [done | repeat (constructor; [by auto|]); constructor]. }
  destruct (app_start w _); simpl.
  { exists [AppInitialize; AppStart].
    rewrite <- !app_assoc. split; [done | repeat (constructor; [by auto|]); constructor]. }
  exists [AppInitialize; AppStart; StartPolling].
  split; [|repeat (constructor; [by auto|]); constructor].
  destruct (start_polling w _); simpl; by rewrite <- !app_assoc.
Qed.


(** X6: Once the module-level code has run, no exception leaves the script:
    either [main] gets as far as polling, or what it raised is caught by
    the [__main__] block, logged as a critical error, and the script ends
    normally. *)
Theorem script_catches_main b w env t g t0 :
  module_init b env t = (Returns g, t0) ->
  exists t1,
    script b w env t = (Returns tt, t1) /\
    (main w g t0 = (Returns setup_bot, t1) \/
     exists e t2,
       main w g t0 = (Raises e, t2) /\
       t1 = t2 ++ [Log ERROR ("💥 Eroare critică: " +:+ str_exn e)]).
Proof.
  intros Hinit. unfold script, bind at 1. rewrite Hinit.
  unfold try_except, bind. rewrite main_eq. cbv zeta.
  destruct (app_initialize w _); [by eexists; split; [|right; eexists _, _]|].
  destruct (app_start w _); [by eexists; split; [|right; eexists _, _]|].
  destruct (start_polling w _); [by eexists; split; [|right; eexists _, _]|].
  eexists; split; [done | by left].
Qed.

Lemma module_init_ready :
  module_init Sample.builtins Sample.ready [] = (Returns Sample.globals, []).
Proof. vm_compute. reflexivity. Qed.

Lemma script_catches_main_witness :
  script Sample.builtins Sample.offline Sample.ready [] =
  (Returns tt,
   [Log INFO "🚀 Pornire AI Telegram Bot...";
    Log INFO "🤖 Bot Token: ✅ Setat";
    Log INFO "🧠 OpenAI Key: ✅ Setat";
    Log INFO "📊 Model AI: gpt-3.5-turbo";
    Log INFO "✅ Bot-ul este gata!";
    Log INFO "📡 Aștept mesaje...";
    AppInitialize;
    Log ERROR "💥 Eroare critică: Timed out"]).
Proof.
  destruct (script_catches_main Sample.builtins Sample.offline Sample.ready
              [] Sample.globals [] module_init_ready)
    as (t1 & -> & [H | (e & t2 & H & ->)]); vm_compute in H.
  - discriminate H.
  - by injection H as <- <-.
Defined.





(** X8: The module-level code logs nothing when it succeeds, and leaves both
    credentials non-empty.  So the start-up lines of [main] always report
    them as set: within the script the other alternative of lines 189-190
    is never logged. *)
Theorem module_init_credentials b env t g t' :
  module_init b env t = (Returns g, t') ->
  t' = t /\
  truthy (TELEGRAM_TOKEN g) = true /\
  truthy (OPENAI_API_KEY g) = true /\
  forall w, exists rest,
    snd (main w g t') =
      t ++ [ Log INFO "🚀 Pornire AI Telegram Bot...";
             Log INFO "🤖 Bot Token: ✅ Setat";
             Log INFO "🧠 OpenAI Key: ✅ Setat";
             Log INFO ("📊 Model AI: " +:+ AI_MODEL env);
             Log INFO "✅ Bot-ul este gata!";
             Log INFO "📡 Aștept mesaje..." ] ++ rest.
Proof.
  intros Hinit.
  destruct (module_init_returns _ _ _ _ _ Hinit) as (Hmodel & Hn & Hx).
  rewrite (module_init_eq _ _ _ _ _ Hn Hx), check_env_eq in Hinit.
  destruct (truthy (env !! "TELEGRAM_BOT_TOKEN")) eqn:Ht; [|discriminate].
  destruct (truthy (env !! "OPENAI_API_KEY")) eqn:Hk; [|discriminate].
  simpl in Hinit. injection Hinit as <- <-. simpl.
  split; [done|]. split; [done|]. split; [done|]. intros w.
  destruct (main_trace w
              {| TELEGRAM_TOKEN := env !! "TELEGRAM_BOT_TOKEN";
                 OPENAI_API_KEY := env !! "OPENAI_API_KEY";
                 cfg_model := AI_MODEL env;
                 cfg_max_tokens := cfg_max_tokens g;
                 cfg_temperature := cfg_temperature g |} t) as (rest & -> & _).
  exists rest. unfold startup_log, set_or_missing; simpl. by rewrite Ht, Hk.
Qed.

Lemma module_init_credentials_witness :
  truthy (TELEGRAM_TOKEN Sample.globals) = true /\
  truthy (OPENAI_API_KEY Sample.globals) = true.
Proof.
  destruct (module_init_credentials Sample.builtins Sample.ready []
              Sample.globals [] module_init_ready) as (_ & H1 & H2 & _).
  by split.
Defined.

(** X10: A malformed [AI_MAX_TOKENS] or [AI_TEMPERATURE] stops the script with
    a [ValueError] before anything is logged, whatever the credentials
    are. *)
Theorem malformed_number_stops b w env t s :
  (env !! "AI_MAX_TOKENS" = Some s /\ int_of_str b s = None) \/
  (env !! "AI_TEMPERATURE" = Some s /\ float_of_str b s = None) ->
  exists msg, script b w env t = (Raises (Exn ValueError msg), t).
Proof.
  intros H. unfold script, module_init, bind at 1 2.
  rewrite AI_MAX_TOKENS_eq.
  destruct H as [[-> ->]|[Hs Hx]]; [by eexists|].
  destruct (env !! "AI_MAX_TOKENS") as [s'|];
    [destruct (int_of_str b s'); [|by eexists]|].
  all: unfold bind at 1; rewrite AI_TEMPERATURE_eq, Hs, Hx; by eexists.
Qed.

Lemma malformed_number_stops_witness :
  exists msg,
    script Sample.builtins Sample.offline
      (<[ "AI_TEMPERATURE" := "abc" ]> Sample.ready) [] =
    (Raises (Exn ValueError msg), []).
Proof.
  apply (malformed_number_stops _ _ _ _ "abc").
  right. split; vm_compute; reflexivity.
Defined.

Lemma missing_credential_stops_witness :
  exists msg t,
    script Sample.builtins Sample.offline
      {[ "TELEGRAM_BOT_TOKEN" := "123:abc"; "AI_MAX_TOKENS" := "abc" ]} [] =
      (Raises (Exn ValueError msg), t) /\
    StartPolling ∉ t.
Proof.
  apply missing_credential_stops. vm_compute. reflexivity.
Defined.

(** X12: With well-formed numbers and no token, exactly one line is logged and
    it names the token, whether or not the key is missing too. *)
Theorem token_reported_first b w env t :
  numbers_parse b env ->
  truthy (env !! "TELEGRAM_BOT_TOKEN") = false ->
  script b w env t =
  (Raises (Exn ValueError "TELEGRAM_BOT_TOKEN lipsă"),
   t ++ [Log ERROR "❌ TELEGRAM_BOT_TOKEN nu este setat în .env"]).
Proof.
  intros Hp Ht.
  destruct (numbers_parse_values b env t Hp) as (n & x & Hn & Hx).
  apply script_raises.
  by rewrite (module_init_eq b env t n x Hn Hx), check_env_eq, Ht.
Qed.

Lemma token_reported_first_witness :
  script Sample.builtins Sample.offline ∅ [] =
  (Raises (Exn ValueError "TELEGRAM_BOT_TOKEN lipsă"),
   [Log ERROR "❌ TELEGRAM_BOT_TOKEN nu este setat în .env"]).
Proof.
  apply (token_reported_first Sample.builtins Sample.offline ∅ []).
  - split; intros s H; vm_compute in H; discriminate H.
  - reflexivity.
Defined.
